(** * futile.py: approximating a resistance with E12 resistors in parallel

    A shallow embedding of [futile.py] (classes [DecimalFloat] and
    [Resistor], functions [approximateResistor] and [main]) and the
    properties of it that the design document states, with further
    properties of the code after them.

    Python's [float] is an interface here ([PyFloat]); every function of
    the program is written once, over that interface, and read at two
    instances:

    - [Binary64]: IEEE 754 double precision, the kernel's primitive
      floats, which is what CPython computes with.  Closed evaluations
      (examples and counterexamples) are done at this instance.
    - [Exact]: the rationals [Q] with no rounding.  Every double is a
      rational, so every input the program can receive is covered; the
      arithmetic is idealised.  Statements quantified over all inputs
      are proved at this instance.

    Three library functions are modelled rather than embedded:
    [math.log10], whose integer part is computed exactly (see
    [int_log10]); [10 ** e] for a negative [e], taken correctly rounded
    (see [pow10]); and [str] of a float, CPython's shortest decimal that
    reads back as the float (see [str]).

    Exceptions are values of [exn] carried by [result]; the unbounded
    [while True] loop takes fuel.  [main] reads [float] of a text as a
    parameter, and its standard output is the list of the lines
    printed, on a stream that encodes them. *)

From Stdlib Require Import ZArith QArith Qabs Qround Qpower Lia Lqa.
From Stdlib Require Import List String Ascii Bool DecimalString Permutation.
From Stdlib Require Import Floats Uint63.
Import ListNotations.

Local Open Scope Z_scope.

(** ** Exceptions and results *)

Inductive exn : Type :=
| ValueError (msg : string)
| ZeroDivisionError
| OverflowError
| AttributeError
| IndexError.

Inductive result (A : Type) : Type :=
| Ok (a : A)
| Raise (e : exn).

Arguments Ok {A} a.
Arguments Raise {A} e.

Definition bind {A B : Type} (c : result A) (k : A -> result B) : result B :=
  match c with
  | Ok a => k a
  | Raise e => Raise e
  end.

Notation "x <- c ;; k" := (bind c (fun x => k))
  (at level 61, c at next level, right associativity).

(** The two messages the program can raise a [ValueError] with: the one
    of [math.log10] and the one of [Resistor.__init__]. *)
Definition math_domain_error : string := "math domain error".
Definition range_error : string := "Resistors must be between 10R and 820M".

(** The message of [int] on a NaN. *)
Definition nan_error : string := "cannot convert float NaN to integer".

(** ** Integer part of the base-10 logarithm, computed exactly *)

(** [Zlog10 n] is [floor (log10 n)] for [1 <= n]. *)
Fixpoint Zlog10_fuel (fuel : nat) (n : Z) : Z :=
  match fuel with
  | O => 0
  | S f => if n <? 10 then 0 else 1 + Zlog10_fuel f (n / 10)
  end.

Definition Zlog10 (n : Z) : Z := Zlog10_fuel (S (Z.to_nat (Z.log2 n))) n.

(** [Qtrunc_log10 x] is [int(log10 x)] for [0 < x]: the logarithm
    truncated towards zero, as Python's [int] truncates. *)
Definition Qtrunc_log10 (x : Q) : Z :=
  let n := Qnum x in
  let d := Zpos (Qden x) in
  if d <=? n then Zlog10 (n / d) else - Zlog10 (d / n).

Definition Qltb (a b : Q) : bool := negb (Qle_bool b a).

(** ** Python's float, as an interface *)

Class PyFloat (F : Type) : Type := {
  (** the exact value of a finite float *)
  to_Q : F -> Q;
  (** the float nearest to a rational: literals, [float(n)] of an int *)
  of_Q : Q -> F;
  fadd : F -> F -> F;
  fsub : F -> F -> F;
  fmul : F -> F -> F;
  fdiv : F -> F -> F;
  feqb : F -> F -> bool;
  fltb : F -> F -> bool;
  fleb : F -> F -> bool;
  fabs : F -> F;
  ffinite : F -> bool
}.

Section Futile.

Context {F : Type} `{PyFloat F}.

(** A Python number: an [int] or a [float].  [10 ** e] is an [int] when
    [0 <= e] and a [float] otherwise; the float is taken to be the one
    nearest to the power, as a correctly rounded [pow] gives it. *)
Inductive pynum : Type :=
| PyInt (n : Z)
| PyFlt (x : F).

(** The float of a number, as the operators convert an [int] operand.
    (Python raises [OverflowError] on an [int] beyond the doubles; the
    powers of ten that the program forms from a finite float are within
    them.) *)
Definition float_of_num (a : pynum) : F :=
  match a with
  | PyInt n => of_Q (inject_Z n)
  | PyFlt x => x
  end.

Definition pow10 (e : Z) : pynum :=
  if 0 <=? e then PyInt (10 ^ e) else PyFlt (of_Q (10 ^ e)%Q).

(** [a > x] for a number [a] and a float [x]; Python compares an [int]
    with a [float] exactly. *)
Definition num_gtb (a : pynum) (x : F) : bool :=
  match a with
  | PyInt n => Qltb (to_Q x) (inject_Z n)
  | PyFlt y => fltb x y
  end.

(** [x / y] on floats raises [ZeroDivisionError] when [y] is zero. *)
Definition py_div (x y : F) : result F :=
  if feqb y (of_Q 0) then Raise ZeroDivisionError else Ok (fdiv x y).

(** [int(math.log10(x))].  [math.log10] raises [ValueError] on zero and
    on negative numbers; [int] raises [ValueError] on a NaN and
    [OverflowError] on an infinity.  The logarithm itself is taken
    exact: libm's may return the integer [k] when the exact logarithm is
    just below [k], which the caller's test [10 ** e > x] undoes. *)
Definition int_log10 (x : F) : result Z :=
  if negb (feqb x x) then Raise (ValueError nan_error)
  else if negb (fltb (of_Q 0) x) then Raise (ValueError math_domain_error)
  else if negb (ffinite x) then Raise OverflowError
  else Ok (Qtrunc_log10 (to_Q x)).

(** ** class DecimalFloat *)

Record DecimalFloat : Type := mkDecimalFloat {
  _mantissa : F;
  _exponent : Z
}.

(** [DecimalFloat.__init__], lines 20 to 22: what follows
    [self._exponent = int(math.log10(float(param)))]. *)
Definition DecimalFloat_from_log (e0 : Z) (param : F) : result DecimalFloat :=
  let e := if num_gtb (pow10 e0) param then e0 - 1 else e0 in
  m <- py_div param (float_of_num (pow10 e)) ;;
  Ok {| _mantissa := m; _exponent := e |}.

(** [DecimalFloat.__init__], on [float(param)]. *)
Definition DecimalFloat_init (param : F) : result DecimalFloat :=
  e0 <- int_log10 param ;;
  DecimalFloat_from_log e0 param.

(** [DecimalFloat.__float__]. *)
Definition DecimalFloat_float (d : DecimalFloat) : F :=
  fmul (_mantissa d) (float_of_num (pow10 (_exponent d))).

(** ** class Resistor *)

Record Resistor : Type := mkResistor {
  _value : DecimalFloat
}.

Definition mantissas : list F :=
  map of_Q [10#10; 12#10; 15#10; 18#10; 22#10; 27#10;
            33#10; 39#10; 47#10; 56#10; 68#10; 82#10]%Q.

(** [e in range(1, 9)]. *)
Definition exponents (e : Z) : bool := (1 <=? e) && (e <? 9).

(** The values of the program: the [int] literal [0], floats, and the
    objects of the two classes. *)
Inductive pyval : Type :=
| VInt (n : Z)
| VFloat (x : F)
| VDecimalFloat (d : DecimalFloat)
| VResistor (r : Resistor).

(** [Resistor.__float__]. *)
Definition Resistor_float (r : Resistor) : F := DecimalFloat_float (_value r).

(** [float(v)]. *)
Definition float_of (v : pyval) : F :=
  match v with
  | VInt n => of_Q (inject_Z n)
  | VFloat x => x
  | VDecimalFloat d => DecimalFloat_float d
  | VResistor r => Resistor_float r
  end.

(** [Resistor.__init__].  The [for] loop returns at the first table
    entry that is [>=] the mantissa; falling off its end would leave the
    object without [_value], so that its first use raises
    [AttributeError]: the model raises it here. *)
Definition Resistor_init (param : pyval) : result Resistor :=
  value <- DecimalFloat_init (float_of param) ;;
  let value :=
    if fltb (last mantissas (of_Q 0)) (_mantissa value)
    then {| _mantissa := hd (of_Q 0) mantissas; _exponent := _exponent value + 1 |}
    else value in
  if negb (exponents (_exponent value)) then Raise (ValueError range_error)
  else
    match find (fun mantissa => fleb (_mantissa value) mantissa) mantissas with
    | Some mantissa =>
        Ok {| _value := {| _mantissa := mantissa; _exponent := _exponent value |} |}
    | None => Raise AttributeError
    end.

(** [param == 0]: true of the numbers that are zero; the classes define
    no [__eq__], so an object never equals [0]. *)
Definition eq_zero (param : pyval) : bool :=
  match param with
  | VInt n => n =? 0
  | VFloat x => feqb x (of_Q 0)
  | _ => false
  end.

(** [1 / x]. *)
Definition py_inv (x : F) : result F := py_div (of_Q 1) x.

(** [Resistor.__add__]. *)
Definition Resistor_add (self : Resistor) (param : pyval) : result pyval :=
  if eq_zero param then Ok (VResistor self)
  else
    a <- py_inv (Resistor_float self) ;;
    b <- py_inv (float_of param) ;;
    q <- py_inv (fadd a b) ;;
    d <- DecimalFloat_init q ;;
    Ok (VDecimalFloat d).

(** [Resistor.__radd__]. *)
Definition Resistor_radd (self : Resistor) (param : pyval) : result pyval :=
  if eq_zero param then Ok (VResistor self)
  else
    a <- py_inv (float_of param) ;;
    b <- py_inv (Resistor_float self) ;;
    q <- py_inv (fadd a b) ;;
    d <- DecimalFloat_init q ;;
    Ok (VDecimalFloat d).

(** [Resistor.__sub__], which [approximateResistor] calls as a plain
    function with a float for [self]. *)
Definition Resistor_sub (self param : pyval) : result pyval :=
  if feqb (float_of self) (float_of param) then Ok (VInt 0)
  else
    a <- py_inv (float_of self) ;;
    b <- py_inv (float_of param) ;;
    q <- py_inv (fsub a b) ;;
    d <- DecimalFloat_init q ;;
    Ok (VDecimalFloat d).

(** [Resistor.__rsub__]. *)
Definition Resistor_rsub (self : Resistor) (param : pyval) : result pyval :=
  a <- py_inv (float_of param) ;;
  b <- py_inv (Resistor_float self) ;;
  q <- py_inv (fsub a b) ;;
  d <- DecimalFloat_init q ;;
  Ok (VDecimalFloat d).

(** ** approximateResistor *)

(** Lines 192 to 194: the running combination, folded from [0]. *)
Definition current_value (output : list Resistor) : result pyval :=
  fold_left
    (fun currentValue approxValue =>
       c <- currentValue ;; Resistor_add approxValue c)
    output (Ok (VInt 0)).

Inductive step : Type :=
| Return (output : list Resistor)
| Continue (output : list Resistor).

(** Line 196: [abs(float(currentValue) - value) / value]. *)
Definition relative_error (value : F) (currentValue : pyval) : result F :=
  py_div (fabs (fsub (float_of currentValue) value)) value.

(** One turn of the [while True] loop, lines 192 to 200. *)
Definition loop_body (value tolerance : F) (output : list Resistor) : result step :=
  currentValue <- current_value output ;;
  err <- relative_error value currentValue ;;
  if fltb err tolerance then Ok (Return output)
  else
    difference <- Resistor_sub (VFloat value) currentValue ;;
    r <- Resistor_init difference ;;
    Ok (Continue (output ++ [r])).

(** The loop inside [try ... except ValueError: return output]; [None]
    when the fuel runs out. *)
Fixpoint approximate_loop (fuel : nat) (value tolerance : F)
    (output : list Resistor) : option (result (list Resistor)) :=
  match fuel with
  | O => None
  | S fuel' =>
      match loop_body value tolerance output with
      | Ok (Return out) => Some (Ok out)
      | Ok (Continue out) => approximate_loop fuel' value tolerance out
      | Raise (ValueError _) => Some (Ok output)
      | Raise e => Some (Raise e)
      end
  end.

(** [approximateResistor(value, tolerance)]; the first resistor is built
    outside the [try]. *)
Definition approximateResistor (fuel : nat) (value tolerance : F)
    : option (result (list Resistor)) :=
  match Resistor_init (VFloat value) with
  | Raise e => Some (Raise e)
  | Ok r => approximate_loop fuel value tolerance [r]
  end.

Definition default_tolerance : F := of_Q (1#100).

End Futile.

Arguments DecimalFloat F : clear implicits.
Arguments Resistor F : clear implicits.
Arguments pyval F : clear implicits.
Arguments pynum F : clear implicits.

(** ** str of a float, and Resistor.__str__ *)

Section Str.

Context {F : Type} `{PyFloat F}.

(** [floor (log10 q)] for [0 < q]. *)
Definition Qfloor_log10 (q : Q) : Z :=
  let k := Qtrunc_log10 q in
  if Qltb q (10 ^ k) then k - 1 else k.

(** The decimal [D * 10^k] reads back as [x]. *)
Definition round_trips (x : F) (D k : Z) : bool :=
  feqb (of_Q (inject_Z D * 10 ^ k)) x.

(** The decimal of [n] significant digits that reads back as [x] and is
    nearest to it, if there is one: it is one of the two that enclose
    the value of [x]. *)
Definition digits_at (x : F) (n : Z) : option (Z * Z) :=
  let q := to_Q x in
  let k := Qfloor_log10 q - n + 1 in
  let t := (q / 10 ^ k)%Q in
  let lo := Qfloor t in
  let hi := lo + 1 in
  let lo_nearer := Qle_bool (t - inject_Z lo) (inject_Z hi - t) in
  if round_trips x lo k && (negb (round_trips x hi k) || lo_nearer)
  then Some (lo, k)
  else if round_trips x hi k then Some (hi, k)
  else None.

(** [repr] of a float prints the shortest decimal that reads back as the
    float, of at most 17 significant digits (17 always suffice for a
    double). *)
Fixpoint shortest_from (x : F) (n : Z) (fuel : nat) : Z * Z :=
  match fuel with
  | O =>
      let k := Qfloor_log10 (to_Q x) - 16 in
      (Qfloor (to_Q x / 10 ^ k + (1#2)), k)
  | S fuel' =>
      match digits_at x n with
      | Some r => r
      | None => shortest_from x (n + 1) fuel'
      end
  end.

Definition shortest_digits (x : F) : Z * Z := shortest_from x 1 16.

Fixpoint zeros (n : nat) : string :=
  match n with
  | O => EmptyString
  | S n' => String "0" (zeros n')
  end.

(** [s.rstrip("0")] and [s.lstrip("0")]. *)
Fixpoint rstrip0 (s : string) : string :=
  match s with
  | EmptyString => EmptyString
  | String c s' =>
      match rstrip0 s' with
      | EmptyString => if Ascii.eqb c "0" then EmptyString else String c EmptyString
      | t => String c t
      end
  end.

Fixpoint lstrip0 (s : string) : string :=
  match s with
  | EmptyString => EmptyString
  | String c s' => if Ascii.eqb c "0" then lstrip0 s' else s
  end.

(** [s.strip("0")]. *)
Definition strip0 (s : string) : string := rstrip0 (lstrip0 s).

(** [s.replace(".", unit)]. *)
Fixpoint replace_dot (unit : string) (s : string) : string :=
  match s with
  | EmptyString => EmptyString
  | String c s' =>
      if Ascii.eqb c "." then unit ++ replace_dot unit s'
      else String c (replace_dot unit s')
  end.

Definition string_of_Z (n : Z) : string :=
  NilZero.string_of_uint (N.to_uint (Z.to_N n)).

(** The text of a positive finite float, as CPython's [repr] lays the
    shortest digits out: plain notation when the decimal point falls
    within [-4 < decpt <= 16], scientific notation otherwise. *)
Definition str_pos (x : F) : string :=
  let '(D, k) := shortest_digits x in
  let all := string_of_Z D in
  let digits := rstrip0 all in
  let n := Z.of_nat (String.length digits) in
  let decpt := Z.of_nat (String.length all) + k in
  if (decpt <=? -4) || (16 <? decpt) then
    let e := decpt - 1 in
    let frac := substring 1 (String.length digits - 1) digits in
    let ee := string_of_Z (Z.abs e) in
    substring 0 1 digits
      ++ (if (String.length frac =? 0)%nat then "" else "." ++ frac)
      ++ "e" ++ (if e <? 0 then "-" else "+")
      ++ (if (String.length ee <? 2)%nat then "0" else "") ++ ee
  else if decpt <=? 0 then "0." ++ zeros (Z.to_nat (- decpt)) ++ digits
  else if n <=? decpt then digits ++ zeros (Z.to_nat (decpt - n)) ++ ".0"
  else substring 0 (Z.to_nat decpt) digits ++ "."
         ++ substring (Z.to_nat decpt) (String.length digits - Z.to_nat decpt) digits.

(** [str(x)] of a float.  The two zeros are told apart by the sign of
    their reciprocal. *)
Definition str (x : F) : string :=
  if negb (feqb x x) then "nan"
  else if negb (ffinite x) then (if fltb x (of_Q 0) then "-inf" else "inf")
  else if feqb x (of_Q 0)
  then (if fltb (fdiv (of_Q 1) x) (of_Q 0) then "-0.0" else "0.0")
  else if fltb x (of_Q 0) then "-" ++ str_pos (fabs x)
  else str_pos x.

(** [l[i]] on a list, with Python's negative indices. *)
Definition py_index {A : Type} (l : list A) (i : Z) : result A :=
  let n := Z.of_nat (List.length l) in
  let j := if i <? 0 then i + n else i in
  if (j <? 0) || (n <=? j) then Raise IndexError
  else match nth_error l (Z.to_nat j) with
       | Some a => Ok a
       | None => Raise IndexError
       end.

(** [Resistor.__str__].  [exponent % 3] is Python's floored remainder;
    [int(exponent / 3)] truncates the quotient towards zero. *)
Definition Resistor_str (self : Resistor F) : result string :=
  let mantissa := _mantissa (_value self) in
  let exponent := _exponent (_value self) in
  let mantissa := fmul mantissa (float_of_num (pow10 (exponent mod 3))) in
  let exponent := Z.quot exponent 3 in
  let output := str mantissa in
  unit <- py_index ["R"; "K"; "M"]%string exponent ;;
  Ok (strip0 (replace_dot unit output)).

End Str.

(** ** The instance of IEEE 754 double precision *)

Module Binary64.

(** The exact value of a finite double; [0] for the others, which no
    caller passes. *)
Definition value_of (x : float) : Q :=
  match Prim2SF x with
  | S754_finite s m e =>
      let a := if s then Zneg m else Zpos m in
      (inject_Z a * 2 ^ e)%Q
  | _ => 0%Q
  end.

(** The double nearest to a rational, ties to even.  The quotient is
    taken with at least 64 significant bits and one more bit that
    records a remainder, which is enough for the rounding to 53 bits of
    [binary_normalize] to be that of the exact quotient. *)
Definition nearest (q : Q) : float :=
  let n := Qnum q in
  let d := Zpos (Qden q) in
  let s := Z.max 0 (64 + Z.log2 d - Z.log2 (Z.abs n)) in
  let a := Z.abs n * 2 ^ s in
  let m := 2 * (a / d) + (if a mod d =? 0 then 0 else 1) in
  SF2Prim (binary_normalize prec emax (if n <? 0 then - m else m) (- s - 1) false).

Definition finite (x : float) : bool := negb (is_nan x || is_infinity x).

#[export] Instance float_PyFloat : PyFloat float := {|
  to_Q := value_of;
  of_Q := nearest;
  fadd := PrimFloat.add;
  fsub := PrimFloat.sub;
  fmul := PrimFloat.mul;
  fdiv := PrimFloat.div;
  feqb := PrimFloat.eqb;
  fltb := PrimFloat.ltb;
  fleb := PrimFloat.leb;
  fabs := PrimFloat.abs;
  ffinite := finite
|}.

End Binary64.

(** ** The instance of exact rational arithmetic *)

Module Exact.

#[export] Instance Q_PyFloat : PyFloat Q := {|
  to_Q := fun q => q;
  of_Q := fun q => q;
  fadd := Qplus;
  fsub := Qminus;
  fmul := Qmult;
  fdiv := Qdiv;
  feqb := Qeq_bool;
  fltb := Qltb;
  fleb := Qle_bool;
  fabs := Qabs;
  ffinite := fun _ => true
|}.

End Exact.

Import Exact Binary64.

(** * Notions used in the statements *)

Local Open Scope Q_scope.

(** Reads the operations of the interface at the exact instance. *)
Ltac exact_ops :=
  change (@to_Q Q Q_PyFloat) with (fun q : Q => q) in *;
  change (@of_Q Q Q_PyFloat) with (fun q : Q => q) in *;
  change (@fadd Q Q_PyFloat) with Qplus in *;
  change (@fsub Q Q_PyFloat) with Qminus in *;
  change (@fmul Q Q_PyFloat) with Qmult in *;
  change (@fdiv Q Q_PyFloat) with Qdiv in *;
  change (@feqb Q Q_PyFloat) with Qeq_bool in *;
  change (@fltb Q Q_PyFloat) with Qltb in *;
  change (@fleb Q Q_PyFloat) with Qle_bool in *;
  change (@fabs Q Q_PyFloat) with Qabs in *;
  change (@ffinite Q Q_PyFloat) with (fun _ : Q => true) in *;
  cbv beta in *.

(** The decade of a positive rational: [10^e <= x < 10^(e+1)]. *)
Definition decade (e : Z) (x : Q) : Prop := 10 ^ e <= x < 10 ^ (e + 1).








(** The resistor of mantissa [m] and exponent [e]. *)
Definition standard {F : Type} (m : F) (e : Z) : Resistor F :=
  {| _value := {| _mantissa := m; _exponent := e |} |}.

(** The resistors of the E12 table over the eight decades. *)
Definition standard_resistors {F : Type} `{PyFloat F} : list (Resistor F) :=
  flat_map (fun e => map (fun m => standard m e) mantissas) [1; 2; 3; 4; 5; 6; 7; 8]%Z.

Fixpoint count_char (c : ascii) (s : string) : nat :=
  match s with
  | EmptyString => O
  | String c' s' => (if Ascii.eqb c c' then 1 else 0) + count_char c s'
  end.

Fixpoint last_char (s : string) : option ascii :=
  match s with
  | EmptyString => None
  | String c EmptyString => Some c
  | String _ s' => last_char s'
  end.

(** The unit letter of a decade: R below 10^3, K below 10^6, M above. *)
Definition unit_of (e : Z) : ascii :=
  if (e <? 3)%Z then "R"%char else if (e <? 6)%Z then "K"%char else "M"%char.

(** A label with no decimal point, one unit letter, that of the
    resistor's decade, and no zero at its end. *)
Definition labelled {F : Type} `{PyFloat F} (r : Resistor F) : bool :=
  match Resistor_str r with
  | Ok s =>
      (count_char "." s =? 0)%nat
      && (count_char (unit_of (_exponent (_value r))) s =? 1)%nat
      && (count_char "R" s + count_char "K" s + count_char "M" s =? 1)%nat
      && match last_char s with
         | Some c => negb (Ascii.eqb c "0")
         | None => false
         end
  | Raise _ => false
  end.

(** * The other methods, and the command line *)

Section Others.

Context {F : Type} `{PyFloat F}.

Open Scope Z_scope.
Open Scope list_scope.
Open Scope string_scope.

(** [str(n)] of an [int]. *)
Definition str_int (n : Z) : string :=
  if (n <? 0)%Z then "-" ++ string_of_Z (- n) else string_of_Z n.

(** [DecimalFloat.__str__] and [DecimalFloat.__repr__]. *)
Definition DecimalFloat_str (self : DecimalFloat F) : string :=
  str (_mantissa self) ++ " * 10**" ++ str_int (_exponent self).

Definition DecimalFloat_repr (self : DecimalFloat F) : string :=
  "DecimalFloat: " ++ DecimalFloat_str self.

(** [Resistor.__repr__]. *)
Definition Resistor_repr (self : Resistor F) : result string :=
  s <- Resistor_str self ;; Ok ("Resistor: " ++ s).

(** The arithmetic of [DecimalFloat], lines 41 to 87: the operation on
    the two floats, and a new [DecimalFloat] from its result. *)
Definition DecimalFloat_add (self : DecimalFloat F) (param : pyval F)
    : result (DecimalFloat F) :=
  DecimalFloat_init (fadd (DecimalFloat_float self) (float_of param)).

Definition DecimalFloat_radd (self : DecimalFloat F) (param : pyval F)
    : result (DecimalFloat F) :=
  DecimalFloat_init (fadd (float_of param) (DecimalFloat_float self)).

Definition DecimalFloat_sub (self : DecimalFloat F) (param : pyval F)
    : result (DecimalFloat F) :=
  DecimalFloat_init (fsub (DecimalFloat_float self) (float_of param)).

Definition DecimalFloat_rsub (self : DecimalFloat F) (param : pyval F)
    : result (DecimalFloat F) :=
  DecimalFloat_init (fsub (float_of param) (DecimalFloat_float self)).

Definition DecimalFloat_mul (self : DecimalFloat F) (param : pyval F)
    : result (DecimalFloat F) :=
  DecimalFloat_init (fmul (DecimalFloat_float self) (float_of param)).

Definition DecimalFloat_rmul (self : DecimalFloat F) (param : pyval F)
    : result (DecimalFloat F) :=
  DecimalFloat_init (fmul (float_of param) (DecimalFloat_float self)).



(** ** main *)

(** [float(s)] of a [str] is a parameter: it returns a float or raises
    [ValueError]. *)
Variable float_of_string : string -> result F.

(** How [main] ends: by returning, by [exit()], or by an exception. *)
Inductive outcome : Type :=
| Finished
| Exited
| Raised (e : exn).

(** Line 208's message. *)
Definition usage (argv0 : string) : string :=
  "Usage: " ++ argv0 ++ " Resistance [Tolerance]".

(** Lines 214 to 218.  Strings are their UTF-8 bytes; [tolerance[-1]]
    raises [IndexError] on the empty string. *)
Definition parse_tolerance (tolerance : string) : result F :=
  match last_char tolerance with
  | None => Raise IndexError
  | Some c =>
      if Ascii.eqb c "%" then
        x <- float_of_string (substring 0 (String.length tolerance - 1) tolerance) ;;
        Ok (fdiv x (of_Q (inject_Z 100)))
      else float_of_string tolerance
  end.

(** [approximateResistor] on the text of the target: line 188 converts
    it, outside the [try]. *)
Definition approximateResistor_text (fuel : nat) (value : string) (tolerance : F)
    : option (result (list (Resistor F))) :=
  match float_of_string value with
  | Raise e => Some (Raise e)
  | Ok v => approximateResistor fuel v tolerance
  end.

(** Lines 225 and 226: a line for each resistor but the last; the lines
    printed before an exception stay printed.  The texts are their
    UTF-8 bytes, and [print] is taken to succeed. *)
Fixpoint print_branches (l : list (Resistor F)) (stdout : list string)
    : list string * result unit :=
  match l with
  | [] => (stdout, Ok tt)
  | approxValue :: l' =>
      match Resistor_str approxValue with
      | Ok s => print_branches l' (stdout ++ [("├─ " ++ s)%string])%list
      | Raise e => (stdout, Raise e)
      end
  end.

(** Lines 224 to 227. *)
Definition print_tree (approximation : list (Resistor F)) (stdout : list string)
    : list string * outcome :=
  match print_branches (removelast approximation) (stdout ++ ["."])%list with
  | (stdout, Raise e) => (stdout, Raised e)
  | (stdout, Ok _) =>
      match py_index approximation (-1) with
      | Raise e => (stdout, Raised e)
      | Ok r =>
          match Resistor_str r with
          | Ok s => ((stdout ++ [("└─ " ++ s)%string])%list, Finished)
          | Raise e => (stdout, Raised e)
          end
      end
  end.

(** Lines 212 to 221: the tolerance is read before the target. *)
Definition main_approximation (fuel : nat) (argv : list string)
    : option (result (list (Resistor F))) :=
  if (List.length argv =? 3)%nat then
    match py_index argv 2 with
    | Raise e => Some (Raise e)
    | Ok t =>
        match parse_tolerance t with
        | Raise e => Some (Raise e)
        | Ok tolerance =>
            match py_index argv 1 with
            | Raise e => Some (Raise e)
            | Ok value => approximateResistor_text fuel value tolerance
            end
        end
    end
  else
    match py_index argv 1 with
    | Raise e => Some (Raise e)
    | Ok value => approximateResistor_text fuel value default_tolerance
    end.

(** [main(argv)]: the lines printed and how the call ends; [None] when
    the fuel of the approximation runs out. *)
Definition main (fuel : nat) (argv : list string) : option (list string * outcome) :=
  if (List.length argv =? 1)%nat || (3 <? List.length argv)%nat then
    match py_index argv 0 with
    | Ok argv0 => Some ([usage argv0], Exited)
    | Raise e => Some ([], Raised e)
    end
  else
    match main_approximation fuel argv with
    | None => None
    | Some (Raise e) => Some ([], Raised e)
    | Some (Ok approximation) => Some (print_tree approximation [])
    end.

End Others.

(** The double-precision label of a resistor, empty where [__str__]
    raises. *)
Definition label_of (r : Resistor float) : string :=
  match Resistor_str r with Ok s => s | Raise _ => EmptyString end.

(** The lines of the tree of lines 224 to 227, from the labels. *)
Definition tree_lines (front : list string) (final : string) : list string :=
  ["."%string] ++ map (append "├─ ") front ++ [("└─ " ++ final)%string].

(** No string twice in a list. *)
Fixpoint distinct (l : list string) : bool :=
  match l with
  | [] => true
  | s :: l' => negb (existsb (String.eqb s) l') && distinct l'
  end.

(** The resistors whose label carries the rounding of line 144: the
    2.2 and the 8.2 of the hundreds. *)
Definition rounding_case (r : Resistor float) : bool :=
  (PrimFloat.eqb (_mantissa (_value r)) (nearest (22#10))
   || PrimFloat.eqb (_mantissa (_value r)) (nearest (82#10)))
  && (_exponent (_value r) mod 3 =? 2)%Z.




(** The outcomes of [DecimalFloat(x)] and [Resistor(x)] that are not
    the error of a missing attribute or of an index. *)
Definition expected {A : Type} (res : result A) : Prop :=
  match res with
  | Ok _ | Raise (ValueError _) | Raise OverflowError | Raise ZeroDivisionError => True
  | Raise AttributeError | Raise IndexError => False
  end.

(** * Properties *)

(** ** The integer logarithm *)





(** ** The rounding of the double-precision instance *)

(** [nearest] agrees with the hardware on what the program writes: the
    entries of the E12 table and the default tolerance are the quotients
    of two integers that doubles hold exactly, which the hardware
    division rounds correctly; and the powers of ten up to 10^22 are
    held exactly. *)
Lemma nearest_table :
  mantissas (F:=float)
  = map (fun n => (PrimFloat.of_uint63 (Uint63.of_Z n) / 10)%float)
        [10; 12; 15; 18; 22; 27; 33; 39; 47; 56; 68; 82]%Z /\
  default_tolerance (F:=float) = (1 / 100)%float.
Proof. split; vm_compute; reflexivity. Qed.

Lemma nearest_pow10_exact :
  forallb (fun e => Qeq_bool (value_of (nearest (inject_Z (10 ^ e)))) (inject_Z (10 ^ e)))
          (map Z.of_nat (seq 0 23)) = true.
Proof. vm_compute. reflexivity. Qed.

(** ** Powers of ten in [Q] *)


Lemma pow10_succ (e : Z) : 10 ^ (e + 1) == 10 * 10 ^ e.
Proof.
  rewrite Qpower_plus by discriminate.
  change (10 ^ 1) with (10 * 1). ring.
Qed.

Lemma pow10_pred (e : Z) : 10 * 10 ^ (e - 1) == 10 ^ e.
Proof.
  rewrite <- pow10_succ. replace (e - 1 + 1)%Z with e by lia. reflexivity.
Qed.


Lemma pow10_lt_inv (a b : Z) : 10 ^ a < 10 ^ b -> (a < b)%Z.
Proof. intros Hab. apply (Qpower_lt_compat_l_inv 10); [exact Hab | reflexivity]. Qed.







(** ** DecimalFloat in exact arithmetic *)




Lemma py_div_exact_zero (x y : Q) :
  y == 0 -> py_div (F:=Q) x y = Raise ZeroDivisionError.
Proof.
  intros Hy. unfold py_div. exact_ops.
  apply Qeq_bool_iff in Hy. rewrite Hy. reflexivity.
Qed.









(** ** Resistor construction *)

(** Whatever the arithmetic, a constructed resistor holds a mantissa of
    the table and an exponent of [range(1, 9)]. *)
Lemma Resistor_init_standard {F : Type} `{PyFloat F} (param : pyval F) (r : Resistor F) :
  Resistor_init param = Ok r ->
  In (_mantissa (_value r)) mantissas /\
  (1 <= _exponent (_value r) <= 8)%Z.
Proof.
  unfold Resistor_init.
  destruct (DecimalFloat_init (float_of param)) as [d|e]; cbn [bind]; [|discriminate].
  set (value := if fltb _ _ then _ else d).
  destruct (exponents (_exponent value)) eqn:He; cbn [negb]; [|discriminate].
  destruct (find _ mantissas) as [m|] eqn:Hf; [|discriminate].
  intros [= <-]. cbn [_value _mantissa _exponent].
  apply find_some in Hf. destruct Hf as [Hin _].
  split; [exact Hin|].
  unfold exponents in He. apply andb_true_iff in He. lia.
Qed.



Lemma exponents_iff (e : Z) : exponents e = true <-> (1 <= e <= 8)%Z.
Proof. unfold exponents. rewrite andb_true_iff, Z.leb_le, Z.ltb_lt. lia. Qed.

Lemma decade_above (e a : Z) (x : Q) : decade e x -> 10 ^ a <= x -> (a <= e)%Z.
Proof.
  intros [_ Hhi] Ha.
  assert (a < e + 1)%Z by (apply pow10_lt_inv; lra). lia.
Qed.

Lemma decade_below (e b : Z) (x : Q) : decade e x -> x < 10 ^ b -> (e < b)%Z.
Proof. intros [Hlo _] Hb. apply pow10_lt_inv. lra. Qed.






(** ** Parallel combination in exact arithmetic *)


Lemma py_inv_exact_zero (x : Q) : x == 0 -> py_inv (F:=Q) x = Raise ZeroDivisionError.
Proof. intros Hx. unfold py_inv. exact_ops. apply py_div_exact_zero. exact Hx. Qed.











(** ** The loop in exact arithmetic *)









(** ** Outcomes of Resistor construction in exact arithmetic *)




(** * The claims *)

(** ** Construction of a DecimalFloat (C6) *)




(** ** Construction of a Resistor (C2, C3) *)






(** ** The approximation (C1, C4, C5, C10) *)

(** More fuel does not change a result. *)
Lemma approximate_loop_more_fuel {F : Type} `{PyFloat F}
    (fuel n : nat) (value tolerance : F) (output : list (Resistor F))
    (res : result (list (Resistor F))) :
  approximate_loop fuel value tolerance output = Some res ->
  approximate_loop (fuel + n) value tolerance output = Some res.
Proof.
  revert output. induction fuel as [|fuel IH]; intros output; cbn [approximate_loop Nat.add].
  - discriminate.
  - destruct (loop_body value tolerance output) as [[out|out]|e]; auto.
Qed.

Lemma approximateResistor_more_fuel {F : Type} `{PyFloat F}
    (fuel n : nat) (value tolerance : F) (res : result (list (Resistor F))) :
  approximateResistor fuel value tolerance = Some res ->
  approximateResistor (fuel + n) value tolerance = Some res.
Proof.
  unfold approximateResistor.
  destruct (Resistor_init (VFloat value)); [apply approximate_loop_more_fuel | auto].
Qed.




(** C5: in double precision [approximateResistor(1234, 0.01)] returns
    the three resistors 1K5, 8K2 and 47K, with any fuel from three
    turns on, and the relative error of their combination to 1234 is
    below 0.01. *)
Theorem approximateResistor_1234 (n : nat) :
  let output := [standard (nearest (15#10)) 3; standard (nearest (82#10)) 3;
                 standard (nearest (47#10)) 4] in
  approximateResistor (3 + n) 1234%float (nearest (1#100)) = Some (Ok output) /\
  (1 < List.length output)%nat /\
  exists currentValue err,
    current_value output = Ok currentValue /\
    relative_error 1234%float currentValue = Ok err /\
    fltb err (nearest (1#100)) = true.
Proof.
  intros output. split; [|split].
  - apply approximateResistor_more_fuel. vm_compute. reflexivity.
  - cbn. lia.
  - eexists. eexists.
    split; [vm_compute; reflexivity|].
    split; [vm_compute; reflexivity|].
    vm_compute. reflexivity.
Qed.

(** C1, at the failing input: in double precision, with the target 220
    and the tolerance 0, the call raises [ZeroDivisionError].  The first
    resistor is 220R, whose value [2.2 * 10 ** 2] is
    220.00000000000003; it differs from 220.0, so line 171 does not
    return the sentinel, but the two reciprocals are the same double,
    and line 173 divides by their difference.  The handler of line 201
    catches [ValueError] only. *)
Theorem approximateResistor_220_zero_tolerance (n : nat) :
  Resistor_init (VFloat 220%float) = Ok (standard (nearest (22#10)) 2) /\
  str (Resistor_float (standard (nearest (22#10)) 2)) = "220.00000000000003"%string /\
  feqb 220%float (Resistor_float (standard (nearest (22#10)) 2)) = false /\
  feqb (fdiv 1 220)%float (fdiv 1%float (Resistor_float (standard (nearest (22#10)) 2))) = true /\
  Resistor_sub (VFloat 220%float) (VResistor (standard (nearest (22#10)) 2))
    = Raise ZeroDivisionError /\
  approximateResistor (1 + n) 220%float 0%float = Some (Raise ZeroDivisionError).
Proof.
  repeat split; vm_compute; reflexivity.
Qed.





(** ** The label of a resistor (C7) *)

(** C7: in double precision [Resistor(4700)] is labelled 4K7,
    [Resistor(100)] 100R and [Resistor(1000)] 1K; and the label of each
    of the 96 standard resistors has the unit letter of its decade in
    place of the decimal point and no zero at its end. *)
Theorem Resistor_str_examples :
  (r <- Resistor_init (VFloat 4700%float) ;; Resistor_str r) = Ok "4K7"%string /\
  (r <- Resistor_init (VFloat 100%float) ;; Resistor_str r) = Ok "100R"%string /\
  (r <- Resistor_init (VFloat 1000%float) ;; Resistor_str r) = Ok "1K"%string /\
  forallb labelled (standard_resistors (F:=float)) = true.
Proof. repeat split; vm_compute; reflexivity. Qed.

(** ** Parallel combination and its inverse (C8, C9) *)








(** ** The sentinel, whatever the arithmetic *)

(** Once the running combination compares equal to the target on line
    171, the turn of the loop either returned on line 197 or raises the
    logarithm's [ValueError] from [Resistor(0)]; the loop returns the
    list as it stood.  This needs of the arithmetic only that zero
    equals itself and is not below itself, and that the target is not
    zero. *)
Lemma sentinel_caught {F : Type} `{PyFloat F} (fuel : nat) (value tolerance : F)
    (output : list (Resistor F)) (currentValue : pyval F) :
  feqb (of_Q 0) (of_Q 0) = true ->
  fltb (of_Q 0) (of_Q 0) = false ->
  feqb value (of_Q 0) = false ->
  current_value output = Ok currentValue ->
  feqb value (float_of currentValue) = true ->
  Resistor_sub (VFloat value) currentValue = Ok (VInt 0) /\
  Resistor_init (VInt 0) = Raise (ValueError math_domain_error) /\
  (loop_body value tolerance output = Ok (Return output) \/
   loop_body value tolerance output = Raise (ValueError math_domain_error)) /\
  approximate_loop (S fuel) value tolerance output = Some (Ok output).
Proof.
  intros Hz H0 Hv Hcur Heq.
  assert (Hs : Resistor_sub (VFloat value) currentValue = Ok (VInt 0)).
  { unfold Resistor_sub. cbn [float_of]. rewrite Heq. reflexivity. }
  assert (Hr : Resistor_init (VInt 0) = Raise (ValueError math_domain_error)).
  { unfold Resistor_init, DecimalFloat_init, int_log10. cbn [float_of].
    change (inject_Z 0) with 0. rewrite Hz, H0. reflexivity. }
  assert (Hb : loop_body value tolerance output = Ok (Return output) \/
               loop_body value tolerance output = Raise (ValueError math_domain_error)).
  { unfold loop_body, relative_error, py_div. rewrite Hcur, Hv. cbn [bind].
    destruct (fltb _ tolerance); [left; reflexivity | right].
    rewrite Hs. cbn [bind]. rewrite Hr. reflexivity. }
  repeat split; try assumption.
  cbn [approximate_loop]. destruct Hb as [-> | ->]; reflexivity.
Qed.

(** ** Further properties *)

(** In double precision the labels of [Resistor(220)] and
    [Resistor(820)] carry the rounding of line 144: [2.2 * 10 ** 2] is
    220.00000000000003 and [8.2 * 10 ** 2] is 819.9999999999999. *)
Theorem Resistor_str_rounding :
  (r <- Resistor_init (VFloat 220%float) ;; Resistor_str r)
    = Ok "220R00000000000003"%string /\
  (r <- Resistor_init (VFloat 820%float) ;; Resistor_str r)
    = Ok "819R9999999999999"%string.
Proof. split; vm_compute; reflexivity. Qed.

(** Whatever the arithmetic, a resistor that [Resistor.__init__] built
    has a mantissa of the E12 table and an exponent of [1, 8]. *)
Theorem constructed_resistor_is_standard {F : Type} `{PyFloat F}
    (param : pyval F) (r : Resistor F) :
  Resistor_init param = Ok r ->
  In (_mantissa (_value r)) mantissas /\ (1 <= _exponent (_value r) <= 8)%Z.
Proof. apply Resistor_init_standard. Qed.

Lemma constructed_resistor_is_standard_witness :
  In (_mantissa (_value (standard (nearest (47#10)) 3))) mantissas /\
  (1 <= _exponent (_value (standard (nearest (47#10)) 3)) <= 8)%Z.
Proof.
  apply (constructed_resistor_is_standard (VFloat 4700%float) (standard (nearest (47#10)) 3)).
  vm_compute. reflexivity.
Defined.

(** In double precision too the sentinel ends the loop with the list as
    it stood: from any list whose running combination compares equal to
    a target that is not zero. *)
Theorem sentinel_ends_loop_binary64 (fuel : nat) (value tolerance : float)
    (output : list (Resistor float)) (currentValue : pyval float) :
  feqb value 0%float = false ->
  current_value output = Ok currentValue ->
  feqb value (float_of currentValue) = true ->
  Resistor_sub (VFloat value) currentValue = Ok (VInt 0) /\
  Resistor_init (F:=float) (VInt 0) = Raise (ValueError math_domain_error) /\
  (loop_body value tolerance output = Ok (Return output) \/
   loop_body value tolerance output = Raise (ValueError math_domain_error)) /\
  approximate_loop (S fuel) value tolerance output = Some (Ok output).
Proof.
  intros Hv Hcur Heq.
  apply (sentinel_caught fuel value tolerance output currentValue);
    [reflexivity | reflexivity | exact Hv | exact Hcur | exact Heq].
Qed.

Lemma sentinel_ends_loop_binary64_witness :
  Resistor_sub (VFloat 1000%float) (VResistor (standard 1%float 3)) = Ok (VInt 0) /\
  Resistor_init (F:=float) (VInt 0) = Raise (ValueError math_domain_error) /\
  (loop_body 1000%float 0%float [standard 1%float 3] = Ok (Return [standard 1%float 3]) \/
   loop_body 1000%float 0%float [standard 1%float 3]
     = Raise (ValueError math_domain_error)) /\
  approximate_loop 1 1000%float 0%float [standard 1%float 3]
    = Some (Ok [standard 1%float 3]).
Proof.
  apply (sentinel_ends_loop_binary64 0 1000%float 0%float [standard 1%float 3]
           (VResistor (standard 1%float 3)));
    vm_compute; reflexivity.
Defined.

(** ** Constructed resistors and the table *)

Lemma Resistor_init_in_table {F : Type} `{PyFloat F} (param : pyval F) (r : Resistor F) :
  Resistor_init param = Ok r -> In r standard_resistors.
Proof.
  intros Hr. destruct (Resistor_init_standard _ _ Hr) as [Hm He].
  destruct r as [[m e]]. cbn [_value _mantissa _exponent] in Hm, He.
  unfold standard_resistors. apply in_flat_map. exists e. split.
  - assert (Hc : (e = 1 \/ e = 2 \/ e = 3 \/ e = 4 \/ e = 5 \/ e = 6 \/ e = 7 \/ e = 8)%Z) by lia.
    cbn [In]. intuition auto.
  - apply in_map_iff. exists m. split; [reflexivity | exact Hm].
Qed.

(** What a computation over the table says of each of its entries. *)
Lemma table_forall {A B : Type} (f g : A -> B) (l : list A) (x : A) :
  map f l = map g l -> In x l -> f x = g x.
Proof.
  intros Hmap Hin. exact (proj1 map_ext_in_iff Hmap x Hin).
Qed.

Lemma NoDup_map_eq {A B : Type} (f : A -> B) (l : list A) (x y : A) :
  NoDup (map f l) -> In x l -> In y l -> f x = f y -> x = y.
Proof.
  induction l as [|a l IH]; cbn [map In]; [contradiction|].
  intros Hnd Hx Hy Hf. inversion Hnd as [|? ? Hnot Hnd']; subst.
  destruct Hx as [<-|Hx], Hy as [<-|Hy].
  - reflexivity.
  - exfalso. apply Hnot. rewrite Hf. apply in_map. exact Hy.
  - exfalso. apply Hnot. rewrite <- Hf. apply in_map. exact Hx.
  - apply IH; assumption.
Qed.

Lemma distinct_NoDup (l : list string) : distinct l = true -> NoDup l.
Proof.
  induction l as [|s l IH]; cbn [distinct]; intros Hd; constructor.
  - apply andb_true_iff in Hd. destruct Hd as [Hn _].
    intros Hin. apply negb_true_iff in Hn.
    assert (Hex : existsb (String.eqb s) l = true).
    { apply existsb_exists. exists s. split; [exact Hin | apply String.eqb_refl]. }
    congruence.
  - apply IH. apply andb_true_iff in Hd. apply Hd.
Qed.

Lemma labels_table :
  map Resistor_str (standard_resistors (F:=float))
    = map (fun r => Ok (label_of r)) standard_resistors.
Proof. vm_compute. reflexivity. Qed.

Lemma labels_distinct : distinct (map label_of standard_resistors) = true.
Proof. vm_compute. reflexivity. Qed.

Lemma labelled_table : forallb labelled (standard_resistors (F:=float)) = true.
Proof. vm_compute. reflexivity. Qed.

Lemma idempotent_table :
  map (fun r => Resistor_init (VResistor r)) (standard_resistors (F:=float))
    = map Ok standard_resistors.
Proof. vm_compute. reflexivity. Qed.

Lemma rounding_table :
  map (fun r => (String.length (label_of r) <=? 4)%nat) standard_resistors
    = map (fun r => negb (rounding_case r)) standard_resistors.
Proof. vm_compute. reflexivity. Qed.

Lemma rounding_long_table :
  map (fun r => (17 <=? String.length (label_of r))%nat) standard_resistors
    = map rounding_case standard_resistors.
Proof. vm_compute. reflexivity. Qed.

Lemma rsub_table :
  map (fun r => (Resistor_sub (VResistor r) (VFloat (Resistor_float r)),
                 Resistor_rsub r (VFloat (Resistor_float r))))
      (standard_resistors (F:=float))
    = map (fun _ => (Ok (VInt 0), Raise ZeroDivisionError)) standard_resistors.
Proof. vm_compute. reflexivity. Qed.

(** In double precision every resistor that [Resistor.__init__] built
    has a label: [__str__] and [__repr__] raise nothing, and the label
    has no decimal point, the unit letter of the resistor's decade, once
    and as its only letter, and no zero at its end. *)
Theorem Resistor_str_total (param : pyval float) (r : Resistor float) :
  Resistor_init param = Ok r ->
  exists s,
    Resistor_str r = Ok s /\
    Resistor_repr r = Ok ("Resistor: " ++ s)%string /\
    labelled r = true.
Proof.
  intros Hr. apply Resistor_init_in_table in Hr.
  exists (label_of r).
  pose proof (table_forall _ _ _ r labels_table Hr) as Hs. cbv beta in Hs.
  split; [exact Hs|]. split.
  - unfold Resistor_repr. rewrite Hs. reflexivity.
  - exact (proj1 (forallb_forall _ _) labelled_table r Hr).
Qed.

Lemma Resistor_str_total_witness :
  exists s,
    Resistor_str (standard (nearest (47#10)) 3) = Ok s /\
    Resistor_repr (standard (nearest (47#10)) 3) = Ok ("Resistor: " ++ s)%string /\
    labelled (standard (nearest (47#10)) 3) = true.
Proof.
  apply (Resistor_str_total (VFloat 4700%float) (standard (nearest (47#10)) 3)).
  vm_compute. reflexivity.
Defined.

(** In double precision two constructed resistors with the same label
    are the same resistor. *)
Theorem Resistor_str_injective (p1 p2 : pyval float) (r1 r2 : Resistor float) :
  Resistor_init p1 = Ok r1 -> Resistor_init p2 = Ok r2 ->
  Resistor_str r1 = Resistor_str r2 -> r1 = r2.
Proof.
  intros H1 H2 Hs.
  apply Resistor_init_in_table in H1. apply Resistor_init_in_table in H2.
  apply (NoDup_map_eq label_of standard_resistors r1 r2);
    [apply distinct_NoDup, labels_distinct | exact H1 | exact H2 |].
  unfold label_of. rewrite Hs. reflexivity.
Qed.

Lemma Resistor_str_injective_witness : standard 1%float 3 = standard 1%float 3.
Proof.
  apply (Resistor_str_injective (VFloat 1000%float) (VFloat 900%float));
    vm_compute; reflexivity.
Defined.

(** In double precision, building a resistor from a constructed
    resistor, or from its float, gives that resistor back. *)
Theorem Resistor_init_idempotent (param : pyval float) (r : Resistor float) :
  Resistor_init param = Ok r ->
  Resistor_init (VResistor r) = Ok r /\
  Resistor_init (VFloat (Resistor_float r)) = Ok r.
Proof.
  intros Hr. apply Resistor_init_in_table in Hr.
  pose proof (table_forall _ _ _ r idempotent_table Hr) as Hi. cbv beta in Hi.
  split; exact Hi.
Qed.

Lemma Resistor_init_idempotent_witness :
  Resistor_init (VResistor (standard (nearest (22#10)) 2)) = Ok (standard (nearest (22#10)) 2) /\
  Resistor_init (VFloat (Resistor_float (standard (nearest (22#10)) 2)))
    = Ok (standard (nearest (22#10)) 2).
Proof.
  apply (Resistor_init_idempotent (VFloat 220%float) (standard (nearest (22#10)) 2)).
  vm_compute. reflexivity.
Defined.

(** In double precision the label of a constructed resistor has at most
    four characters, but for the 2.2 and the 8.2 of the hundreds (220R,
    820R, 220K, 820K, 220M, 820M), whose label carries the rounding of
    the product of line 144 in seventeen characters or more. *)
Theorem Resistor_str_rounding_cases (param : pyval float) (r : Resistor float) (s : string) :
  Resistor_init param = Ok r ->
  Resistor_str r = Ok s ->
  if rounding_case r then (17 <= String.length s)%nat else (String.length s <= 4)%nat.
Proof.
  intros Hr Hs. apply Resistor_init_in_table in Hr.
  pose proof (table_forall _ _ _ r rounding_table Hr) as Hlen. cbv beta in Hlen.
  pose proof (table_forall _ _ _ r rounding_long_table Hr) as Hlong. cbv beta in Hlong.
  unfold label_of in Hlen, Hlong. rewrite Hs in Hlen, Hlong.
  destruct (rounding_case r); cbn [negb] in *.
  - apply Nat.leb_le. exact Hlong.
  - apply Nat.leb_le. exact Hlen.
Qed.

Lemma Resistor_str_rounding_cases_witness :
  if rounding_case (standard (nearest (22#10)) 2)
  then (17 <= String.length "220R00000000000003")%nat
  else (String.length "220R00000000000003" <= 4)%nat.
Proof.
  apply (Resistor_str_rounding_cases (VFloat 220%float) (standard (nearest (22#10)) 2));
    vm_compute; reflexivity.
Defined.

(** In double precision [Resistor.__rsub__] has no guard for equal
    operands: for every constructed resistor [r],
    [Resistor.__sub__(r, float(r))] is the number 0 and
    [float(r) - r], which calls [__rsub__], raises
    [ZeroDivisionError]. *)
Theorem Resistor_rsub_unguarded (param : pyval float) (r : Resistor float) :
  Resistor_init param = Ok r ->
  Resistor_sub (VResistor r) (VFloat (Resistor_float r)) = Ok (VInt 0) /\
  Resistor_rsub r (VFloat (Resistor_float r)) = Raise ZeroDivisionError.
Proof.
  intros Hr. apply Resistor_init_in_table in Hr.
  pose proof (table_forall _ _ _ r rsub_table Hr) as Hp. cbv beta in Hp.
  injection Hp as H1 H2. split; assumption.
Qed.

Lemma Resistor_rsub_unguarded_witness :
  Resistor_sub (VResistor (standard (nearest (47#10)) 3)) (VFloat (Resistor_float (standard (nearest (47#10)) 3)))
    = Ok (VInt 0) /\
  Resistor_rsub (standard (nearest (47#10)) 3) (VFloat (Resistor_float (standard (nearest (47#10)) 3)))
    = Raise ZeroDivisionError.
Proof.
  apply (Resistor_rsub_unguarded (VFloat 4700%float) (standard (nearest (47#10)) 3)).
  vm_compute. reflexivity.
Defined.

(** ** The shape of the result, whatever the arithmetic *)

Lemma loop_body_cases {F : Type} `{PyFloat F} (value tolerance : F)
    (output : list (Resistor F)) (s : step (F:=F)) :
  loop_body value tolerance output = Ok s ->
  s = Return output \/
  exists difference r, Resistor_init difference = Ok r /\ s = Continue (output ++ [r]).
Proof.
  unfold loop_body.
  destruct (current_value output) as [cv|e]; cbn [bind]; [|discriminate].
  destruct (relative_error value cv) as [err|e]; cbn [bind]; [|discriminate].
  destruct (fltb err tolerance).
  - intros [= <-]. left. reflexivity.
  - destruct (Resistor_sub (VFloat value) cv) as [difference|e]; cbn [bind]; [|discriminate].
    destruct (Resistor_init difference) as [r|e] eqn:Hr; cbn [bind]; [|discriminate].
    intros [= <-]. right. exists difference, r. auto.
Qed.

Lemma approximate_loop_appends {F : Type} `{PyFloat F} (fuel : nat) (value tolerance : F)
    (output out : list (Resistor F)) :
  approximate_loop fuel value tolerance output = Some (Ok out) ->
  exists rest,
    out = output ++ rest /\
    Forall (fun r => In r standard_resistors) rest /\
    (List.length rest < fuel)%nat.
Proof.
  revert output. induction fuel as [|fuel IH]; intros output; cbn [approximate_loop].
  - discriminate.
  - destruct (loop_body value tolerance output) as [s|e] eqn:Hb.
    + destruct (loop_body_cases _ _ _ _ Hb) as [-> | (difference & r & Hr & ->)].
      * intros [= <-]. exists []. rewrite app_nil_r.
        split; [reflexivity|]. split; [constructor | cbn [List.length]; lia].
      * intros Hloop. destruct (IH _ Hloop) as (rest & -> & Hall & Hlen).
        exists (r :: rest). rewrite <- app_assoc. split; [reflexivity|].
        split; [|cbn [List.length]; lia].
        constructor; [|exact Hall]. exact (Resistor_init_in_table _ _ Hr).
    + destruct e; try discriminate.
      intros [= <-]. exists []. rewrite app_nil_r.
      split; [reflexivity|]. split; [constructor | cbn [List.length]; lia].
Qed.

(** Whatever the arithmetic, a list that [approximateResistor] returns
    begins with [Resistor(value)], and each of its resistors is one of
    the 96 of the table over the eight decades. *)
Theorem approximateResistor_returns_standard {F : Type} `{PyFloat F}
    (fuel : nat) (value tolerance : F) (out : list (Resistor F)) :
  approximateResistor fuel value tolerance = Some (Ok out) ->
  exists r rest,
    Resistor_init (VFloat value) = Ok r /\
    out = r :: rest /\
    Forall (fun r => In r standard_resistors) out.
Proof.
  unfold approximateResistor.
  destruct (Resistor_init (VFloat value)) as [r|e] eqn:Hr; [|discriminate].
  intros Hloop. destruct (approximate_loop_appends _ _ _ _ _ Hloop) as (rest & -> & Hall & _).
  exists r, rest. split; [reflexivity|]. split; [reflexivity|].
  constructor; [exact (Resistor_init_in_table _ _ Hr) | exact Hall].
Qed.

Lemma approximateResistor_returns_standard_witness :
  exists r rest,
    Resistor_init (VFloat 1234%float) = Ok r /\
    [standard (nearest (15#10)) 3; standard (nearest (82#10)) 3; standard (nearest (47#10)) 4]
      = r :: rest /\
    Forall (fun r => In r standard_resistors)
      [standard (nearest (15#10)) 3; standard (nearest (82#10)) 3; standard (nearest (47#10)) 4].
Proof.
  apply (approximateResistor_returns_standard 12 1234%float (nearest (1#100))).
  vm_compute. reflexivity.
Defined.

(** ** The result in exact arithmetic *)







(** ** The running combination *)




(** ** The arithmetic of DecimalFloat *)



(** ** Differences of equal doubles *)

Lemma SFsub_equal (x y : spec_float) :
  SFeqb x y = true ->
  (exists s, SF64sub x y = S754_zero s) \/ SF64sub x y = S754_nan.
Proof.
  unfold SFeqb, SF64sub.
  destruct x as [sx|sx| |sx mx ex], y as [sy|sy| |sy my ey]; cbn [SFcompare SFsub];
    try discriminate;
    try (destruct sx; try destruct sy; try discriminate; intros _;
         first [left; eexists; reflexivity | right; reflexivity]; fail).
  intros Hc. left. exists false.
    assert (Hs : sx = sy /\ ex = ey /\ mx = my).
    { destruct sx, sy; try discriminate;
        destruct (Z.compare_spec ex ey) as [He|He|He]; try discriminate;
        (split; [reflexivity|]; split; [exact He|]);
        destruct (Pos.compare_cont Eq mx my) eqn:Hm; try discriminate;
        apply Pos.compare_eq; exact Hm. }
    destruct Hs as (-> & -> & ->).
    rewrite Z.sub_diag. reflexivity.
Qed.

Lemma int_log10_of_difference (a b : float) :
  feqb a b = true ->
  exists msg, int_log10 (fsub a b) = Raise (ValueError msg).
Proof.
  intros Heq. cbn [feqb fsub float_PyFloat] in *.
  rewrite FloatAxioms.eqb_spec in Heq.
  unfold int_log10. cbn [feqb fltb float_PyFloat].
  rewrite FloatAxioms.eqb_spec, FloatAxioms.ltb_spec, FloatAxioms.sub_spec.
  destruct (SFsub_equal _ _ Heq) as [[s ->] | ->].
  - exists math_domain_error. reflexivity.
  - exists nan_error. reflexivity.
Qed.

Lemma feqb_sym_binary64 (a b : float) : feqb a b = true -> feqb b a = true.
Proof.
  cbn [feqb float_PyFloat]. rewrite !FloatAxioms.eqb_spec. unfold SFeqb.
  destruct (Prim2SF a) as [sx|sx| |sx mx ex], (Prim2SF b) as [sy|sy| |sy my ey];
    cbn [SFcompare]; try discriminate; try reflexivity;
    try (destruct sx; try destruct sy; try discriminate; reflexivity).
  destruct sx, sy; try discriminate;
      destruct (Z.compare_spec ex ey) as [He|He|He]; try discriminate; subst;
      rewrite Z.compare_refl;
      destruct (Pos.compare_cont Eq mx my) eqn:Hm; try discriminate;
      apply Pos.compare_eq in Hm; subst; rewrite Pos.compare_cont_refl; reflexivity.
Qed.

(** In double precision a [DecimalFloat] cannot hold a zero: whenever
    the values of the two operands compare equal, [self - param] and
    [param - self] raise a [ValueError]; in particular [d - d] raises
    for every [d]. *)
Theorem DecimalFloat_sub_equal_raises (self : DecimalFloat float) (param : pyval float) :
  feqb (DecimalFloat_float self) (float_of param) = true ->
  (exists msg, DecimalFloat_sub self param = Raise (ValueError msg)) /\
  (exists msg, DecimalFloat_rsub self param = Raise (ValueError msg)).
Proof.
  intros Heq. unfold DecimalFloat_sub, DecimalFloat_rsub, DecimalFloat_init. split.
  - destruct (int_log10_of_difference _ _ Heq) as [msg ->]. exists msg. reflexivity.
  - destruct (int_log10_of_difference _ _ (feqb_sym_binary64 _ _ Heq)) as [msg ->].
    exists msg. reflexivity.
Qed.

Lemma DecimalFloat_sub_equal_raises_witness :
  (exists msg,
     DecimalFloat_sub {| _mantissa := 1.5%float; _exponent := 3 |} (VFloat 1500%float)
       = Raise (ValueError msg)) /\
  (exists msg,
     DecimalFloat_rsub {| _mantissa := 1.5%float; _exponent := 3 |} (VFloat 1500%float)
       = Raise (ValueError msg)).
Proof.
  apply (DecimalFloat_sub_equal_raises {| _mantissa := 1.5%float; _exponent := 3 |}
           (VFloat 1500%float)).
  vm_compute. reflexivity.
Defined.

(** ** The command line *)

Lemma py_index_last {A : Type} (front : list A) (r : A) :
  py_index (front ++ [r]) (-1) = Ok r.
Proof.
  unfold py_index. rewrite length_app. cbn [List.length].
  replace (-1 <? 0)%Z with true by reflexivity.
  set (n := Z.of_nat (List.length front + 1)).
  assert (Hn : (n = Z.of_nat (List.length front) + 1)%Z) by (unfold n; lia).
  replace ((-1 + n <? 0)%Z || (n <=? -1 + n)%Z) with false.
  - replace (Z.to_nat (-1 + n)) with (List.length front) by lia.
    rewrite nth_error_app2 by lia. rewrite Nat.sub_diag. reflexivity.
  - symmetry. apply orb_false_iff. split; [apply Z.ltb_ge | apply Z.leb_gt]; lia.
Qed.

Lemma py_index_first {A : Type} (a : A) (l : list A) : py_index (a :: l) 0 = Ok a.
Proof.
  unfold py_index. cbn [List.length].
  replace (0 <? 0)%Z with false by reflexivity.
  replace ((0 <? 0)%Z || (Z.of_nat (S (List.length l)) <=? 0)%Z) with false.
  - reflexivity.
  - symmetry. apply orb_false_iff. split; [reflexivity | apply Z.leb_gt; lia].
Qed.

Lemma print_branches_labels {F : Type} `{PyFloat F} (label : Resistor F -> string)
    (l : list (Resistor F)) (stdout : list string) :
  Forall (fun r => Resistor_str r = Ok (label r)) l ->
  print_branches l stdout
    = (stdout ++ map (fun r => ("├─ " ++ label r)%string) l, Ok tt).
Proof.
  intros Hl. revert stdout. induction Hl as [|r l Hr _ IH]; intros stdout; cbn [print_branches map].
  - rewrite app_nil_r. reflexivity.
  - rewrite Hr, IH, <- app_assoc. reflexivity.
Qed.

Lemma print_tree_labels {F : Type} `{PyFloat F} (label : Resistor F -> string)
    (front : list (Resistor F)) (r : Resistor F) :
  Forall (fun r => Resistor_str r = Ok (label r)) (front ++ [r]) ->
  print_tree (front ++ [r]) [] = (tree_lines (map label front) (label r), Finished).
Proof.
  intros Hl. apply Forall_app in Hl. destruct Hl as [Hfront Hr].
  inversion Hr as [|? ? Hr' _]; subst.
  unfold print_tree. rewrite removelast_last.
  rewrite (print_branches_labels label front _ Hfront).
  rewrite py_index_last, Hr'. unfold tree_lines.
  rewrite map_map, <- app_assoc. reflexivity.
Qed.

Lemma labels_of_table (l : list (Resistor float)) :
  Forall (fun r => In r standard_resistors) l ->
  Forall (fun r => Resistor_str r = Ok (label_of r)) l.
Proof.
  apply Forall_impl. intros r Hr.
  exact (table_forall _ _ _ r labels_table Hr).
Qed.

Lemma main_approximation_in_table {F : Type} `{PyFloat F}
    (float_of_string : string -> result F) (fuel : nat) (argv : list string)
    (l : list (Resistor F)) :
  main_approximation float_of_string fuel argv = Some (Ok l) ->
  l <> [] /\ Forall (fun r => In r standard_resistors) l.
Proof.
  assert (Htext : forall value tolerance,
            approximateResistor_text float_of_string fuel value tolerance = Some (Ok l) ->
            l <> [] /\ Forall (fun r => In r standard_resistors) l).
  { intros value tolerance. unfold approximateResistor_text.
    destruct (float_of_string value) as [v|e]; [|discriminate].
    unfold approximateResistor.
    destruct (Resistor_init (VFloat v)) as [r|e] eqn:Hr; [|discriminate].
    intros Ha. destruct (approximate_loop_appends _ _ _ _ _ Ha) as (rest & -> & Hall & _).
    split; [discriminate|].
    constructor; [exact (Resistor_init_in_table _ _ Hr) | exact Hall]. }
  unfold main_approximation.
  destruct (List.length argv =? 3)%nat.
  - destruct (py_index argv 2) as [t|e]; [|discriminate].
    destruct (parse_tolerance float_of_string t) as [tolerance|e]; [|discriminate].
    destruct (py_index argv 1) as [value|e]; [|discriminate].
    apply Htext.
  - destruct (py_index argv 1) as [value|e]; [|discriminate].
    apply Htext.
Qed.

(** In double precision, whatever [float] makes of the arguments: when
    [main] ends by [exit()] it was given no argument or more than two
    and has printed the usage line only; when it ends by an exception,
    the exception is that of reading the arguments or of
    [approximateResistor], and nothing has been printed; and when it
    returns it has printed the tree of the approximation, a line for
    each resistor under the line of the root, no label missing. *)
Theorem main_outcomes (float_of_string : string -> result float) (fuel : nat)
    (argv : list string) (stdout : list string) (o : outcome) :
  main float_of_string fuel argv = Some (stdout, o) ->
  match o with
  | Exited =>
      (List.length argv = 1 \/ 3 < List.length argv)%nat /\
      exists argv0, hd_error argv = Some argv0 /\ stdout = [usage argv0]
  | Raised e =>
      (List.length argv = 0 \/ List.length argv = 2 \/ List.length argv = 3)%nat /\
      main_approximation float_of_string fuel argv = Some (Raise e) /\
      stdout = []
  | Finished =>
      (List.length argv = 2 \/ List.length argv = 3)%nat /\
      exists front r,
        main_approximation float_of_string fuel argv = Some (Ok (front ++ [r])) /\
        stdout = tree_lines (map label_of front) (label_of r) /\
        List.length stdout = S (List.length (front ++ [r]))
  end.
Proof.
  unfold main.
  destruct ((List.length argv =? 1)%nat || (3 <? List.length argv)%nat) eqn:Hn.
  - assert (Hlen : (List.length argv = 1 \/ 3 < List.length argv)%nat).
    { apply orb_true_iff in Hn. destruct Hn as [Hn|Hn];
        [left; apply Nat.eqb_eq | right; apply Nat.ltb_lt]; exact Hn. }
    destruct argv as [|argv0 rest]; [cbn [List.length] in Hlen; lia|].
    rewrite py_index_first. intros [= <- <-].
    split; [exact Hlen|]. exists argv0. split; reflexivity.
  - apply orb_false_iff in Hn. destruct Hn as [Hn1 Hn3].
    apply Nat.eqb_neq in Hn1. apply Nat.ltb_ge in Hn3.
    destruct (main_approximation float_of_string fuel argv) as [[l|e]|] eqn:Ha;
      [| |discriminate].
    + destruct (main_approximation_in_table _ _ _ _ Ha) as [Hne Hall].
      destruct (exists_last Hne) as (front & r & ->).
      rewrite (print_tree_labels label_of front r (labels_of_table _ Hall)).
      intros [= <- <-].
      assert (Hlen : (List.length argv = 2 \/ List.length argv = 3)%nat).
      { destruct (Nat.eq_dec (List.length argv) 0) as [E|E]; [|lia].
        apply length_zero_iff_nil in E. subst argv.
        unfold main_approximation in Ha. cbn in Ha. discriminate. }
      split; [exact Hlen|]. exists front, r.
      split; [reflexivity|]. split; [reflexivity|].
      unfold tree_lines. rewrite !length_app, !length_map. cbn [List.length]. lia.
    + intros [= <- <-]. split; [lia|]. split; reflexivity.
Qed.

Lemma main_outcomes_witness :
  (List.length ["futile.py"; "1234"]%string = 2
   \/ List.length ["futile.py"; "1234"]%string = 3)%nat /\
  exists front r,
    main_approximation
      (fun s => if String.eqb s "1234" then Ok 1234%float else Raise (ValueError s))
      12 ["futile.py"; "1234"]%string = Some (Ok (front ++ [r])) /\
    [("."); ("├─ 1K5"); ("├─ 8K2"); ("└─ 47K")]%string
      = tree_lines (map label_of front) (label_of r) /\
    List.length [("."); ("├─ 1K5"); ("├─ 8K2"); ("└─ 47K")]%string
      = S (List.length (front ++ [r])).
Proof.
  apply (main_outcomes
           (fun s => if String.eqb s "1234" then Ok 1234%float else Raise (ValueError s))
           12 ["futile.py"; "1234"]%string
           [("."); ("├─ 1K5"); ("├─ 8K2"); ("└─ 47K")]%string Finished).
  vm_compute. reflexivity.
Defined.

Lemma last_char_app (s : string) (c : ascii) :
  last_char (s ++ String c EmptyString) = Some c.
Proof.
  induction s as [|a s IH]; [reflexivity|].
  cbn [append last_char]. rewrite IH.
  destruct (s ++ String c EmptyString)%string eqn:E; [|reflexivity].
  destruct s; discriminate.
Qed.

Lemma substring_prefix (s t : string) : substring 0 (String.length s) (s ++ t) = s.
Proof.
  induction s as [|a s IH]; cbn [append String.length substring].
  - destruct t; reflexivity.
  - rewrite IH. reflexivity.
Qed.

Lemma String_length_app (s t : string) :
  String.length (s ++ t) = (String.length s + String.length t)%nat.
Proof.
  induction s as [|a s IH]; cbn [append String.length]; [reflexivity|].
  rewrite IH. reflexivity.
Qed.

(** Whatever the arithmetic and whatever [float] makes of a text: a
    tolerance that ends in a percent sign is the hundredth of the
    number before the sign, any other tolerance is the number itself,
    and the empty text raises [IndexError]. *)
Theorem parse_tolerance_percent {F : Type} `{PyFloat F}
    (float_of_string : string -> result F) (s : string) (c : ascii) :
  parse_tolerance float_of_string (s ++ String c EmptyString)%string
    = (if Ascii.eqb c "%"
       then x <- float_of_string s ;; Ok (fdiv x (of_Q (inject_Z 100)))
       else float_of_string (s ++ String c EmptyString)%string) /\
  parse_tolerance float_of_string EmptyString = Raise IndexError.
Proof.
  split; [|reflexivity].
  unfold parse_tolerance. rewrite last_char_app.
  destruct (Ascii.eqb c "%"); [|reflexivity].
  rewrite String_length_app. cbn [String.length].
  replace (String.length s + 1 - 1)%nat with (String.length s) by lia.
  rewrite substring_prefix. reflexivity.
Qed.

(** ** A standard value is approximated by itself *)

Lemma standard_value_itself {F : Type} `{PyFloat F} (fuel : nat) (r : Resistor F)
    (tolerance : F) :
  feqb (of_Q 0) (of_Q 0) = true ->
  fltb (of_Q 0) (of_Q 0) = false ->
  feqb (Resistor_float r) (of_Q 0) = false ->
  feqb (Resistor_float r) (Resistor_float r) = true ->
  Resistor_init (VFloat (Resistor_float r)) = Ok r ->
  approximateResistor (S fuel) (Resistor_float r) tolerance = Some (Ok [r]).
Proof.
  intros Hz H0 Hv Heq Hr. unfold approximateResistor. rewrite Hr.
  apply (sentinel_caught fuel (Resistor_float r) tolerance [r] (VResistor r));
    try assumption.
  cbv [current_value fold_left bind Resistor_add eq_zero]. reflexivity.
Qed.

Lemma standard_value_table :
  map (fun r => (feqb (Resistor_float r) (of_Q 0), feqb (Resistor_float r) (Resistor_float r)))
      (standard_resistors (F:=float))
    = map (fun _ => (false, true)) standard_resistors.
Proof. vm_compute. reflexivity. Qed.

(** In double precision, for every constructed resistor [r], every
    tolerance and every number of turns, [approximateResistor] of the
    value of [r] returns the list of [r] alone. *)
Theorem approximateResistor_of_standard_value (param : pyval float) (r : Resistor float)
    (tolerance : float) (fuel : nat) :
  Resistor_init param = Ok r ->
  approximateResistor (S fuel) (Resistor_float r) tolerance = Some (Ok [r]).
Proof.
  intros Hr. apply Resistor_init_in_table in Hr.
  pose proof (table_forall _ _ _ r standard_value_table Hr) as Ht. cbv beta in Ht.
  injection Ht as Hv Heq.
  apply standard_value_itself; try assumption; try reflexivity.
  exact (table_forall _ _ _ r idempotent_table Hr).
Qed.

Lemma approximateResistor_of_standard_value_witness :
  approximateResistor 1 (Resistor_float (standard (nearest (22#10)) 2)) 0%float
    = Some (Ok [standard (nearest (22#10)) 2]).
Proof.
  apply (approximateResistor_of_standard_value (VFloat 220%float)
           (standard (nearest (22#10)) 2) 0%float 0).
  vm_compute. reflexivity.
Defined.

(** ** The accuracy of the result in exact arithmetic *)




(** ** The reflected operators on doubles *)

Lemma SFadd_comm (x y : spec_float) : SF64add x y = SF64add y x.
Proof.
  unfold SF64add.
  destruct x as [sx|sx| |sx mx ex], y as [sy|sy| |sy my ey]; cbn [SFadd];
    try reflexivity; try (destruct sx, sy; reflexivity).
  rewrite (Z.min_comm ey ex), Z.add_comm. reflexivity.
Qed.

Lemma SFmul_comm (x y : spec_float) : SF64mul x y = SF64mul y x.
Proof.
  unfold SF64mul.
  destruct x as [sx|sx| |sx mx ex], y as [sy|sy| |sy my ey]; cbn [SFmul];
    try reflexivity; try (rewrite (xorb_comm sy sx); reflexivity).
  rewrite (xorb_comm sy sx), (Pos.mul_comm my mx), (Z.add_comm ey ex). reflexivity.
Qed.

Lemma fadd_comm_binary64 (x y : float) : fadd x y = fadd y x.
Proof.
  cbn [fadd float_PyFloat]. apply Prim2SF_inj.
  rewrite !FloatAxioms.add_spec. apply SFadd_comm.
Qed.

Lemma fmul_comm_binary64 (x y : float) : fmul x y = fmul y x.
Proof.
  cbn [fmul float_PyFloat]. apply Prim2SF_inj.
  rewrite !FloatAxioms.mul_spec. apply SFmul_comm.
Qed.

(** In double precision the reflected operators give what the direct
    ones give, result or exception: [other + r] is [r + other] for a
    resistor, and [other + d] is [d + other] and [other * d] is
    [d * other] for a [DecimalFloat]. *)
Theorem reflected_operators_agree (r : Resistor float) (d : DecimalFloat float)
    (param : pyval float) :
  Resistor_radd r param = Resistor_add r param /\
  DecimalFloat_radd d param = DecimalFloat_add d param /\
  DecimalFloat_rmul d param = DecimalFloat_mul d param.
Proof.
  split; [|split].
  - unfold Resistor_radd, Resistor_add.
    destruct (eq_zero param); [reflexivity|].
    destruct (py_inv (float_of param)) as [a|e] eqn:Ha,
             (py_inv (Resistor_float r)) as [b|e'] eqn:Hb; cbn [bind].
    + rewrite (fadd_comm_binary64 a b). reflexivity.
    + reflexivity.
    + reflexivity.
    + unfold py_inv, py_div in Ha, Hb.
      destruct (feqb (float_of param) (of_Q 0)); [|discriminate].
      destruct (feqb (Resistor_float r) (of_Q 0)); [|discriminate].
      congruence.
  - unfold DecimalFloat_radd, DecimalFloat_add.
    rewrite (fadd_comm_binary64 (float_of param)). reflexivity.
  - unfold DecimalFloat_rmul, DecimalFloat_mul.
    rewrite (fmul_comm_binary64 (float_of param)). reflexivity.
Qed.

(** ** The value of a constructed resistor, printed *)

Lemma DecimalFloat_str_table :
  map (fun r => DecimalFloat_str (_value r)) (standard_resistors (F:=float))
    = flat_map (fun e => map (fun m => (m ++ " * 10**" ++ e)%string)
                           ["1.0"; "1.2"; "1.5"; "1.8"; "2.2"; "2.7";
                            "3.3"; "3.9"; "4.7"; "5.6"; "6.8"; "8.2"]%string)
               ["1"; "2"; "3"; "4"; "5"; "6"; "7"; "8"]%string.
Proof. vm_compute. reflexivity. Qed.

(** In double precision the value of a constructed resistor prints as
    the literal of its mantissa in the table of the source, and its
    decade: [str] gives back the three characters of each of the twelve
    literals. *)
Theorem DecimalFloat_str_of_resistor (param : pyval float) (r : Resistor float) :
  Resistor_init param = Ok r ->
  exists m e,
    In m ["1.0"; "1.2"; "1.5"; "1.8"; "2.2"; "2.7";
          "3.3"; "3.9"; "4.7"; "5.6"; "6.8"; "8.2"]%string /\
    In e ["1"; "2"; "3"; "4"; "5"; "6"; "7"; "8"]%string /\
    DecimalFloat_str (_value r) = (m ++ " * 10**" ++ e)%string /\
    DecimalFloat_repr (_value r) = ("DecimalFloat: " ++ m ++ " * 10**" ++ e)%string.
Proof.
  intros Hr. apply Resistor_init_in_table in Hr.
  assert (Hin : In (DecimalFloat_str (_value r))
                  (map (fun r => DecimalFloat_str (_value r)) standard_resistors))
    by (apply (in_map (fun r => DecimalFloat_str (_value r))); exact Hr).
  rewrite DecimalFloat_str_table in Hin.
  apply in_flat_map in Hin. destruct Hin as (e & He & Hin).
  apply in_map_iff in Hin. destruct Hin as (m & Hm & Hmin).
  exists m, e. split; [exact Hmin|]. split; [exact He|].
  split; [symmetry; exact Hm|].
  unfold DecimalFloat_repr. rewrite <- Hm. reflexivity.
Qed.

Lemma DecimalFloat_str_of_resistor_witness :
  exists m e,
    In m ["1.0"; "1.2"; "1.5"; "1.8"; "2.2"; "2.7";
          "3.3"; "3.9"; "4.7"; "5.6"; "6.8"; "8.2"]%string /\
    In e ["1"; "2"; "3"; "4"; "5"; "6"; "7"; "8"]%string /\
    DecimalFloat_str (_value (standard (nearest (47#10)) 3)) = (m ++ " * 10**" ++ e)%string /\
    DecimalFloat_repr (_value (standard (nearest (47#10)) 3))
      = ("DecimalFloat: " ++ m ++ " * 10**" ++ e)%string.
Proof.
  apply (DecimalFloat_str_of_resistor (VFloat 4700%float) (standard (nearest (47#10)) 3)).
  vm_compute. reflexivity.
Defined.

(** ** The least standard resistor *)





(** ** A wider tolerance returns a prefix *)

Lemma SFltb_leb_trans (x y z : spec_float) :
  SFltb x y = true -> SFleb y z = true -> SFltb x z = true.
Proof.
  unfold SFltb, SFleb.
  destruct x as [sx|sx| |sx mx ex], y as [sy|sy| |sy my ey], z as [sz|sz| |sz mz ez];
    cbn [SFcompare]; try discriminate; try reflexivity;
    try (destruct sx; try discriminate; try reflexivity;
         destruct sy; try discriminate; try reflexivity;
         destruct sz; try discriminate; try reflexivity; fail).
  change (PosDef.Pos.compare_cont Eq) with Pos.compare.
  destruct sx, sy, sz; try discriminate; try reflexivity;
    destruct (Z.compare_spec ex ey); try discriminate;
    destruct (Z.compare_spec ey ez); try discriminate;
    destruct (Z.compare_spec ex ez); try discriminate; try reflexivity; try lia;
    subst;
    try destruct (Pos.compare_spec mx my); try discriminate;
    try destruct (Pos.compare_spec my mz); try discriminate;
    try destruct (Pos.compare_spec mx mz); try discriminate; try reflexivity;
    cbn [CompOpp]; try discriminate; try reflexivity; lia.
Qed.

Lemma fltb_fleb_trans_binary64 (x y z : float) :
  fltb x y = true -> fleb y z = true -> fltb x z = true.
Proof.
  cbn [fltb fleb float_PyFloat].
  rewrite !FloatAxioms.ltb_spec, FloatAxioms.leb_spec. apply SFltb_leb_trans.
Qed.

Lemma approximate_loop_tolerance {F : Type} `{PyFloat F} (fuel : nat)
    (value tol1 tol2 : F) (output out1 : list (Resistor F)) :
  (forall err, fltb err tol1 = true -> fltb err tol2 = true) ->
  approximate_loop fuel value tol1 output = Some (Ok out1) ->
  exists out2 rest,
    approximate_loop fuel value tol2 output = Some (Ok out2) /\ out1 = out2 ++ rest.
Proof.
  intros Hmono. revert output. induction fuel as [|fuel IH]; intros output H1.
  - discriminate.
  - destruct (approximate_loop_appends _ _ _ _ _ H1) as (rest1 & Hrest1 & _ & _).
    cbn [approximate_loop] in *. unfold loop_body in *.
    destruct (current_value output) as [cv|e]; cbn [bind] in *.
    + destruct (relative_error value cv) as [err|e]; cbn [bind] in *.
      * destruct (fltb err tol1) eqn:E1.
        -- rewrite (Hmono _ E1). injection H1 as <-.
           exists output, []. rewrite app_nil_r. auto.
        -- destruct (fltb err tol2) eqn:E2.
           ++ exists output, rest1. auto.
           ++ destruct (Resistor_sub (VFloat value) cv) as [difference|e]; cbn [bind] in *.
              ** destruct (Resistor_init difference) as [r|e]; cbn [bind] in *.
                 --- apply IH. exact H1.
                 --- destruct e; try discriminate. injection H1 as <-.
                     exists output, []. rewrite app_nil_r. auto.
              ** destruct e; try discriminate. injection H1 as <-.
                 exists output, []. rewrite app_nil_r. auto.
      * destruct e; try discriminate. injection H1 as <-.
        exists output, []. rewrite app_nil_r. auto.
    + destruct e; try discriminate. injection H1 as <-.
      exists output, []. rewrite app_nil_r. auto.
Qed.

(** In double precision, when [approximateResistor] returns a list for
    a tolerance, it returns a list for every tolerance that is not
    below it, and that list is a prefix of the first: a stricter
    tolerance appends resistors and changes none. *)
Theorem approximateResistor_tolerance_prefix (fuel : nat) (value tol1 tol2 : float)
    (out1 : list (Resistor float)) :
  fleb tol1 tol2 = true ->
  approximateResistor fuel value tol1 = Some (Ok out1) ->
  exists out2 rest,
    approximateResistor fuel value tol2 = Some (Ok out2) /\ out1 = out2 ++ rest.
Proof.
  intros Htol. unfold approximateResistor.
  destruct (Resistor_init (VFloat value)) as [r|e]; [|discriminate].
  apply approximate_loop_tolerance.
  intros err Herr. exact (fltb_fleb_trans_binary64 _ _ _ Herr Htol).
Qed.

Lemma approximateResistor_tolerance_prefix_witness :
  exists out2 rest,
    approximateResistor 12 1234%float 0.5%float = Some (Ok out2) /\
    [standard (nearest (15#10)) 3; standard (nearest (82#10)) 3; standard (nearest (47#10)) 4]
      = out2 ++ rest.
Proof.
  apply (approximateResistor_tolerance_prefix 12 1234%float (nearest (1#100)) 0.5%float);
    vm_compute; reflexivity.
Defined.

(** ** A tolerance above a quarter *)



(** ** The quotient of two doubles is a number *)

Lemma iter_pos_invariant {A : Type} (P : A -> Prop) (f : A -> A) :
  (forall x, P x -> P (f x)) -> forall p x, P x -> P (iter_pos f p x).
Proof.
  intros Hf. induction p as [p IH|p IH|]; intros x Hx; cbn [iter_pos].
  - apply IH, IH, Hf, Hx.
  - apply IH, IH, Hx.
  - apply Hf, Hx.
Qed.

Lemma shr_1_nonneg (mrs : shr_record) : (0 <= shr_m mrs -> 0 <= shr_m (shr_1 mrs))%Z.
Proof.
  destruct mrs as [m r s]. cbn [shr_m shr_1].
  destruct m as [|p|p]; [reflexivity| |lia].
  intros _. destruct p; cbn [shr_m]; lia.
Qed.

Lemma shr_fexp_nonneg (m e : Z) (l : location) :
  (0 <= m -> 0 <= shr_m (fst (shr_fexp prec emax m e l)))%Z.
Proof.
  intros Hm. unfold shr_fexp, shr.
  assert (H0 : (0 <= shr_m (shr_record_of_loc m l))%Z).
  { destruct l as [|[ | | ]]; exact Hm. }
  destruct (fexp prec emax (Zdigits2 m + e) - e)%Z as [|p|p]; cbn [fst]; try exact H0.
  apply (iter_pos_invariant (fun mrs => (0 <= shr_m mrs)%Z)); [apply shr_1_nonneg | exact H0].
Qed.

Lemma round_nearest_even_nonneg (m : Z) (l : location) :
  (0 <= m -> 0 <= round_nearest_even m l)%Z.
Proof.
  intros Hm. unfold round_nearest_even.
  destruct l as [|[ | | ]]; try exact Hm; [destruct (Z.even m)|]; lia.
Qed.

Lemma binary_round_aux_number (s : bool) (m e : Z) (l : location) :
  (0 <= m)%Z -> binary_round_aux prec emax s m e l <> S754_nan.
Proof.
  intros Hm. unfold binary_round_aux.
  pose proof (shr_fexp_nonneg m e l Hm) as H1.
  destruct (shr_fexp prec emax m e l) as [mrs' e'] eqn:E1. cbn [fst] in H1.
  pose proof (shr_fexp_nonneg _ e' loc_Exact
                (round_nearest_even_nonneg _ (loc_of_shr_record mrs') H1)) as H2.
  destruct (shr_fexp prec emax (round_nearest_even (shr_m mrs') (loc_of_shr_record mrs'))
              e' loc_Exact) as [mrs'' e''] eqn:E2.
  cbn [fst] in H2.
  destruct (shr_m mrs'') as [|p|p]; [discriminate| |lia].
  destruct (e'' <=? emax - prec)%Z; discriminate.
Qed.

Lemma SFdiv_number (x : spec_float) (s : bool) (m : positive) (e : Z) :
  x <> S754_nan -> SF64div x (S754_finite s m e) <> S754_nan.
Proof.
  intros Hx. unfold SF64div.
  destruct x as [sx|sx| |sx mx ex]; cbn [SFdiv]; try discriminate; [contradiction|].
  unfold SFdiv_core_binary.
  set (e' := Z.min _ _). set (m' := match (ex - e - e')%Z with 0%Z => _ | _ => _ end).
  assert (Hm' : (0 <= m')%Z).
  { unfold m'. destruct (ex - e - e')%Z as [|p|p]; [lia | | lia].
    apply Z.shiftl_nonneg. lia. }
  pose proof (Z.div_pos m' (Z.pos m) Hm' ltac:(lia)) as Hq.
  unfold Z.div in Hq.
  change IntDef.Z.div_eucl with Z.div_eucl.
  destruct (Z.div_eucl m' (Z.pos m)) as [q r].
  apply binary_round_aux_number. exact Hq.
Qed.

Lemma SFcompare_not_below (x y : spec_float) :
  y <> S754_nan -> x <> S754_nan -> SFltb x y = false -> SFleb y x = true.
Proof.
  unfold SFltb, SFleb.
  destruct x as [sx|sx| |sx mx ex], y as [sy|sy| |sy my ey]; cbn [SFcompare];
    try contradiction; intros _ _;
    try (destruct sx; try destruct sy; try discriminate; reflexivity).
  change (PosDef.Pos.compare_cont Eq) with Pos.compare.
  rewrite (Z.compare_antisym ex ey), (Pos.compare_antisym mx my).
  destruct sx, sy; try discriminate; try reflexivity;
    destruct (ex ?= ey)%Z; cbn [CompOpp]; try discriminate; try reflexivity;
    destruct (mx ?= my)%positive; cbn [CompOpp]; try discriminate; reflexivity.
Qed.

(** ** What construction can raise on doubles *)

Lemma feqb_self_number (x : float) : feqb x x = true -> Prim2SF x <> S754_nan.
Proof.
  cbn [feqb float_PyFloat]. rewrite FloatAxioms.eqb_spec. intros H E.
  rewrite E in H. discriminate.
Qed.

Lemma pow10_decade_finite (e : Z) :
  (1 <= e <= 8)%Z ->
  exists m k, Prim2SF (float_of_num (F:=float) (pow10 e)) = S754_finite false m k.
Proof.
  intros He.
  assert (Hc : (e = 1 \/ e = 2 \/ e = 3 \/ e = 4 \/ e = 5 \/ e = 6 \/ e = 7 \/ e = 8)%Z) by lia.
  destruct Hc as [->|[->|[->|[->|[->|[->|[->| ->]]]]]]]; eexists; eexists;
    vm_compute; reflexivity.
Qed.

Lemma find_last_mantissa (m : float) :
  fleb m (last mantissas (of_Q 0)) = true ->
  exists t, find (fun mantissa => fleb m mantissa) mantissas = Some t.
Proof.
  intros Hle.
  destruct (find (fun mantissa => fleb m mantissa) mantissas) as [t|] eqn:Hf;
    [exists t; reflexivity|].
  pose proof (find_none _ _ Hf (last mantissas (of_Q 0))) as Hn. cbv beta in Hn.
  rewrite Hle in Hn. discriminate Hn.
  vm_compute. do 11 right. left. reflexivity.
Qed.

Lemma DecimalFloat_init_expected {F : Type} `{PyFloat F} (x : F) :
  expected (DecimalFloat_init x).
Proof.
  unfold DecimalFloat_init, int_log10, DecimalFloat_from_log, py_div.
  destruct (negb (feqb x x)); [exact I|].
  destruct (negb (fltb (of_Q 0) x)); [exact I|].
  destruct (negb (ffinite x)); [exact I|]. cbn [bind].
  destruct (feqb _ (of_Q 0)); exact I.
Qed.

Lemma Resistor_init_expected (param : pyval float) : expected (Resistor_init param).
Proof.
  unfold Resistor_init, DecimalFloat_init, int_log10.
  set (x := float_of param).
  destruct (feqb x x) eqn:Hxx; cbn [negb]; [|exact I].
  destruct (fltb (of_Q 0) x); cbn [negb]; [|exact I].
  destruct (ffinite x); cbn [negb bind]; [|exact I].
  unfold DecimalFloat_from_log, py_div.
  remember (if num_gtb (pow10 (Qtrunc_log10 (to_Q x))) x
            then (Qtrunc_log10 (to_Q x) - 1)%Z else Qtrunc_log10 (to_Q x)) as e eqn:Ee.
  clear Ee.
  destruct (feqb (float_of_num (pow10 e)) (of_Q 0)); cbn [bind]; [exact I|].
  cbn [_mantissa _exponent].
  destruct (fltb (last mantissas (of_Q 0)) (fdiv x (float_of_num (pow10 e)))) eqn:Hroll;
    cbn [_mantissa _exponent].
  - destruct (exponents (e + 1)); cbn [negb]; [|exact I].
    replace (find _ mantissas) with (Some (hd (of_Q 0) (mantissas (F:=float))));
      [exact I | vm_compute; reflexivity].
  - destruct (exponents e) eqn:He; cbn [negb]; [|exact I].
    apply exponents_iff in He.
    destruct (pow10_decade_finite e He) as (mp & kp & Hp).
    assert (Hnum : Prim2SF (fdiv x (float_of_num (pow10 e))) <> S754_nan).
    { cbn [fdiv float_PyFloat]. rewrite FloatAxioms.div_spec, Hp.
      apply SFdiv_number. apply feqb_self_number. exact Hxx. }
    assert (Hle : fleb (fdiv x (float_of_num (pow10 e))) (last mantissas (of_Q 0)) = true).
    { cbn [fltb fleb float_PyFloat] in *.
      rewrite FloatAxioms.ltb_spec in Hroll. rewrite FloatAxioms.leb_spec.
      apply SFcompare_not_below; [exact Hnum | | exact Hroll].
      vm_compute. discriminate. }
    destruct (find_last_mantissa _ Hle) as [t ->]. exact I.
Qed.

Lemma expected_bind {A B : Type} (c : result A) (k : A -> result B) :
  expected c -> (forall a, expected (k a)) -> expected (bind c k).
Proof.
  destruct c as [a|e]; cbn [bind]; [intros _ Hk; apply Hk | intros He _; exact He].
Qed.

Lemma py_div_expected {F : Type} `{PyFloat F} (x y : F) : expected (py_div x y).
Proof. unfold py_div. destruct (feqb y (of_Q 0)); exact I. Qed.

Lemma parallel_expected {F : Type} `{PyFloat F} (op : F -> F -> F) (x y : F) :
  expected (a <- py_inv x ;; b <- py_inv y ;; q <- py_inv (op a b) ;;
            d <- DecimalFloat_init q ;; Ok (VDecimalFloat d)).
Proof.
  unfold py_inv.
  apply expected_bind; [apply py_div_expected | intros a].
  apply expected_bind; [apply py_div_expected | intros b].
  apply expected_bind; [apply py_div_expected | intros q].
  apply expected_bind; [apply DecimalFloat_init_expected | intros d]. exact I.
Qed.

Lemma current_value_expected {F : Type} `{PyFloat F} (output : list (Resistor F)) :
  expected (current_value output).
Proof.
  unfold current_value.
  assert (Hfold : forall (l : list (Resistor F)) (c : result (pyval F)),
            expected c ->
            expected (fold_left (fun currentValue approxValue =>
                                   c <- currentValue ;; Resistor_add approxValue c) l c)).
  { induction l as [|r l IH]; intros c Hc; cbn [fold_left]; [exact Hc|].
    apply IH. apply expected_bind; [exact Hc | intros a].
    unfold Resistor_add. destruct (eq_zero a); [exact I|].
    apply (parallel_expected fadd). }
  apply Hfold. exact I.
Qed.

Lemma loop_body_expected (value tolerance : float) (output : list (Resistor float)) :
  expected (loop_body value tolerance output).
Proof.
  unfold loop_body.
  apply expected_bind; [apply current_value_expected | intros currentValue].
  apply expected_bind; [apply py_div_expected | intros err].
  destruct (fltb err tolerance); [exact I|].
  apply expected_bind; [|intros difference].
  - unfold Resistor_sub. destruct (feqb _ _); [exact I|]. apply (parallel_expected fsub).
  - apply expected_bind; [apply Resistor_init_expected | intros r]. exact I.
Qed.

Lemma approximate_loop_raises (fuel : nat) (value tolerance : float)
    (output : list (Resistor float)) (e : exn) :
  approximate_loop fuel value tolerance output = Some (Raise e) ->
  e = OverflowError \/ e = ZeroDivisionError.
Proof.
  revert output. induction fuel as [|fuel IH]; intros output; cbn [approximate_loop].
  - discriminate.
  - pose proof (loop_body_expected value tolerance output) as Hb.
    destruct (loop_body value tolerance output) as [[out|out]|e'].
    + discriminate.
    + apply IH.
    + destruct e'; cbn [expected] in Hb; try contradiction; try discriminate;
        intros [= <-]; auto.
Qed.

(** In double precision [Resistor.__init__] returns a resistor or
    raises [ValueError], [OverflowError] or [ZeroDivisionError]: its
    [for] loop always finds an entry of the table, so that no object is
    left without [_value]. *)
Theorem Resistor_init_outcomes (param : pyval float) :
  (exists r, Resistor_init param = Ok r) \/
  (exists msg, Resistor_init param = Raise (ValueError msg)) \/
  Resistor_init param = Raise OverflowError \/
  Resistor_init param = Raise ZeroDivisionError.
Proof.
  pose proof (Resistor_init_expected param) as He.
  destruct (Resistor_init param) as [r|[msg| | | |]]; cbn [expected] in He;
    try contradiction.
  - left. exists r. reflexivity.
  - right. left. exists msg. reflexivity.
  - right. right. right. reflexivity.
  - right. right. left. reflexivity.
Qed.

(** In double precision an exception that [approximateResistor] lets
    out is the [ValueError] of the first construction, before the
    [try], or an [OverflowError] or a [ZeroDivisionError]: none of the
    [ValueError]s of the loop gets out, and nothing else is raised. *)
Theorem approximateResistor_exceptions (fuel : nat) (value tolerance : float) (e : exn) :
  approximateResistor fuel value tolerance = Some (Raise e) ->
  (exists msg, e = ValueError msg /\ Resistor_init (VFloat value) = Raise e) \/
  e = OverflowError \/ e = ZeroDivisionError.
Proof.
  unfold approximateResistor.
  pose proof (Resistor_init_expected (VFloat value)) as He.
  destruct (Resistor_init (VFloat value)) as [r|e'].
  - intros Hloop. right. exact (approximate_loop_raises _ _ _ _ _ Hloop).
  - intros [= <-]. destruct e'; cbn [expected] in He; try contradiction; auto.
    left. eexists. split; reflexivity.
Qed.

Lemma approximateResistor_exceptions_witness :
  (exists msg, ZeroDivisionError = ValueError msg /\
               Resistor_init (VFloat 220%float) = Raise ZeroDivisionError) \/
  ZeroDivisionError = OverflowError \/ ZeroDivisionError = ZeroDivisionError.
Proof.
  apply (approximateResistor_exceptions 12 220%float 0%float ZeroDivisionError).
  vm_compute. reflexivity.
Defined.
